(** * The image request client and the generation controller

    A shallow embedding of [generateImage] (services/geminiService) and of the
    handlers [handleSelectKey] and [handleGenerate] of the [Generator]
    component, together with the properties their specification states.

    JavaScript values are modelled by the types the code gives them:
    optional properties are [option], arrays are lists, a promise is the
    completion (normal or thrown) of the computation that produced it.
    Effects on the component state and on the browser (console, alert,
    events, the SDK call, the two stores) are threaded through a state and
    exception monad [M]. *)

From Stdlib Require Import ZArith String Ascii List DecimalString.
From stdpp Require Import base option list strings gmap.

Open Scope Z_scope.
Open Scope string_scope.

(** ** JavaScript values *)

(** An [Error] object with its [name] and [message]. *)
Record JsError := mkJsError { name : string; message : string }.

(** [new Error(msg)] *)
Definition Error (msg : string) : JsError :=
  {| name := "Error"; message := msg |}.

(** The [TypeError] the runtime raises when a property [prop] is read from
    [undefined] (message as worded by V8). *)
Definition TypeErrorReading (prop : string) : JsError :=
  {| name := "TypeError";
     message := "Cannot read properties of undefined (reading '" ++ prop ++ "')" |}.

(** The same, when the property is read from [null]. *)
Definition TypeErrorReadingNull (prop : string) : JsError :=
  {| name := "TypeError";
     message := "Cannot read properties of null (reading '" ++ prop ++ "')" |}.

(** The [TypeError] raised when an absent method [callee] is called. *)
Definition TypeErrorNotAFunction (callee : string) : JsError :=
  {| name := "TypeError"; message := callee ++ " is not a function" |}.

(** A thrown value, or the reason a promise is rejected with: an [Error]
    object, or no object at all ([undefined], [null]), on which no property
    can be read. A value that merely lacks a [message] reads like an object
    whose message is empty. *)
Inductive Thrown :=
| ErrorValue (e : JsError)
| Undefined
| Null.
Coercion ErrorValue : JsError >-> Thrown.

(** How a computation (or an awaited promise) completes. *)
Inductive Completion (A : Type) : Type :=
| Normal (a : A)
| Throw (e : Thrown).
Arguments Normal {A} a.
Arguments Throw {A} e.

(** [haystack.includes(needle)] *)
Fixpoint includes (needle haystack : string) : bool :=
  String.prefix needle haystack ||
  match haystack with
  | EmptyString => false
  | String _ rest => includes needle rest
  end.

(** Template-literal rendering of an integral number. *)
Definition numberToString (n : Z) : string :=
  NilZero.string_of_int (Z.to_int n).

(** ** Data model *)

(** The size union ['1K' | '2K' | '4K']. *)
Inductive ImageSize := S1K | S2K | S4K.

(** The argument of [ai.models.generateContent], with the key the SDK
    instance was built with. *)
Record Request := mkRequest {
  apiKey : string;
  model : string;
  text : string;
  aspectRatio : string;
  imageSize : ImageSize
}.

(** The parts of the SDK response the client reads. *)
Record InlineData := mkInlineData { data : string }.
Record Part := mkPart { inlineData : option InlineData }.
Record Content := mkContent { parts : option (list Part) }.
Record Candidate := mkCandidate { content : option Content }.
Record Response := mkResponse { candidates : option (list Candidate) }.

(** The [User] record, as far as the controller reads it. *)
Record User := mkUser { id : string; credits : Z }.

(** The third argument of [updateUserCredits]; the controller only ever
    passes ['subtract']. *)
Inductive CreditOp := Subtract.

Record HistoryEntry := mkHistoryEntry {
  accountId : string;
  entryPrompt : string;
  imageReference : string;
  modelIdentifier : string;
  resolution : ImageSize;
  timestamp : Z
}.

(** [window.aistudio]: both methods are optional; [openSelectKey] answers
    its [n]-th invocation by resolving ([None]) or rejecting ([Some e]). *)
Record AiStudio := mkAiStudio {
  hasSelectedApiKey : option (Completion bool);
  openSelectKey : option (nat -> option Thrown)
}.

(** Observable effects, in the order they happen. *)
Inductive Event :=
| EvPreventDefault
| EvHasSelectedApiKey
| EvOpenSelectKey
| EvAlert (msg : string)
| EvConsoleError (label : option string) (e : Thrown)
| EvGenerateContent (req : Request)
| EvUpdateUserCredits (userId : string) (amount : Z) (op : CreditOp)
| EvDispatchEvent (type : string)
| EvSaveImage (userId prompt imageUrl model : string) (size : ImageSize).

(** Everything outside the component: the environment it reads
    ([aistudio], [API_KEY], the image service, the clock), the two stores and
    the trace of effects. *)
Record World := mkWorld {
  aistudio : option AiStudio;
  API_KEY : option string;
  generateContent : Request -> Completion Response;
  clock : Z;
  selectCalls : nat;
  accounts : gmap string Z;
  history : list HistoryEntry;
  log : list Event
}.

(** The state hooks of [Generator]. *)
Record Generator := mkGenerator {
  prompt : string;
  size : ImageSize;
  isGenerating : bool;
  generatedImage : option string;
  error : string;
  user : option User;
  hasApiKey : bool
}.

Record Sys := mkSys { comp : Generator; world : World }.

(** ** The monad of handlers *)

Definition M (A : Type) : Type := Sys -> Completion A * Sys.

#[global] Instance M_ret : MRet M := fun A a s => (Normal a, s).
#[global] Instance M_bind : MBind M := fun A B k m s =>
  match m s with
  | (Normal a, s') => k a s'
  | (Throw e, s') => (Throw e, s')
  end.

Definition throw {A} (e : Thrown) : M A := fun s => (Throw e, s).

(** [try { body } catch (e) { handler e }] *)
Definition tryCatch {A} (body : M A) (handler : Thrown -> M A) : M A :=
  fun s =>
    match body s with
    | (Normal a, s') => (Normal a, s')
    | (Throw e, s') => handler e s'
    end.

(** [try { body } finally { fin }] *)
Definition tryFinally {A} (body : M A) (fin : M unit) : M A :=
  fun s =>
    let '(r, s') := body s in
    match fin s' with
    | (Normal _, s'') => (r, s'')
    | (Throw e, s'') => (Throw e, s'')
    end.

Definition getComp : M Generator := fun s => (Normal (comp s), s).
Definition getWorld : M World := fun s => (Normal (world s), s).
Definition modifyComp (f : Generator -> Generator) : M unit :=
  fun s => (Normal tt, {| comp := f (comp s); world := world s |}).
Definition modifyWorld (f : World -> World) : M unit :=
  fun s => (Normal tt, {| comp := comp s; world := f (world s) |}).

(** Field updates of the world. *)
Definition withLog (l : list Event) (w : World) : World :=
  {| aistudio := aistudio w; API_KEY := API_KEY w;
     generateContent := generateContent w; clock := clock w;
     selectCalls := selectCalls w; accounts := accounts w;
     history := history w; log := l |}.
Definition withSelectCalls (n : nat) (w : World) : World :=
  {| aistudio := aistudio w; API_KEY := API_KEY w;
     generateContent := generateContent w; clock := clock w;
     selectCalls := n; accounts := accounts w;
     history := history w; log := log w |}.
Definition withAccounts (a : gmap string Z) (w : World) : World :=
  {| aistudio := aistudio w; API_KEY := API_KEY w;
     generateContent := generateContent w; clock := clock w;
     selectCalls := selectCalls w; accounts := a;
     history := history w; log := log w |}.
Definition withHistory (h : list HistoryEntry) (w : World) : World :=
  {| aistudio := aistudio w; API_KEY := API_KEY w;
     generateContent := generateContent w; clock := clock w;
     selectCalls := selectCalls w; accounts := accounts w;
     history := h; log := log w |}.

Definition emit (ev : Event) : M unit :=
  modifyWorld (fun w => withLog (log w ++ [ev]) w).

(** The state setters of the component. *)
Definition setIsGenerating (b : bool) : M unit :=
  modifyComp (fun c =>
    {| prompt := prompt c; size := size c; isGenerating := b;
       generatedImage := generatedImage c; error := error c;
       user := user c; hasApiKey := hasApiKey c |}).
Definition setGeneratedImage (img : option string) : M unit :=
  modifyComp (fun c =>
    {| prompt := prompt c; size := size c; isGenerating := isGenerating c;
       generatedImage := img; error := error c;
       user := user c; hasApiKey := hasApiKey c |}).
Definition setError (msg : string) : M unit :=
  modifyComp (fun c =>
    {| prompt := prompt c; size := size c; isGenerating := isGenerating c;
       generatedImage := generatedImage c; error := msg;
       user := user c; hasApiKey := hasApiKey c |}).
Definition setUser (u : option User) : M unit :=
  modifyComp (fun c =>
    {| prompt := prompt c; size := size c; isGenerating := isGenerating c;
       generatedImage := generatedImage c; error := error c;
       user := u; hasApiKey := hasApiKey c |}).
Definition setHasApiKey (b : bool) : M unit :=
  modifyComp (fun c =>
    {| prompt := prompt c; size := size c; isGenerating := isGenerating c;
       generatedImage := generatedImage c; error := error c;
       user := user c; hasApiKey := b |}).

(** Browser effects. *)
Definition consoleError (label : option string) (e : Thrown) : M unit :=
  emit (EvConsoleError label e).
Definition alert (msg : string) : M unit := emit (EvAlert msg).
Definition dispatchEvent (type : string) : M unit := emit (EvDispatchEvent type).
Definition preventDefault : M unit := emit EvPreventDefault.

(** ** The request client: [generateImage] *)

Definition modelName : string := "gemini-3-pro-image-preview".

(** [process.env.API_KEY || ''] *)
Definition apiKeyOrEmpty (key : option string) : string :=
  match key with
  | Some k => if String.eqb k "" then "" else k
  | None => ""
  end.

(** [await ai.models.generateContent({...})] *)
Definition callGenerateContent (req : Request) : M Response :=
  emit (EvGenerateContent req);;
  w ← getWorld;
  match generateContent w req with
  | Normal response => mret response
  | Throw e => throw e
  end.

(** The [for (const part of ...)] loop: the first part with [inlineData]
    sets [imageUrl] and breaks. *)
Fixpoint scanParts (ps : list Part) (imageUrl : string) : string :=
  match ps with
  | [] => imageUrl
  | part :: rest =>
      match inlineData part with
      | Some blob => "data:image/png;base64," ++ data blob
      | None => scanParts rest imageUrl
      end
  end.

(** Lines 41-52: [let imageUrl = ''] and the guarded scan of
    [response.candidates[0].content.parts]. Reading [.content] of a missing
    first candidate, or [.parts] of a missing content, throws. *)
Definition findImageUrl (response : Response) : Completion string :=
  let imageUrl := "" in
  match candidates response with
  | None => Normal imageUrl
  | Some cs =>
      match cs !! 0%nat with
      | None => Throw (TypeErrorReading "content")
      | Some c0 =>
          match content c0 with
          | None => Throw (TypeErrorReading "parts")
          | Some ct =>
              match parts ct with
              | None => Normal imageUrl
              | Some ps => Normal (scanParts ps imageUrl)
              end
          end
      end
  end.

Definition liftCompletion {A} (r : Completion A) : M A := fun s => (r, s).

(** Lines 22-39: the SDK instance built with the key, and the argument of
    the call. *)
Definition requestFor (key : option string) (prompt : string) (size : ImageSize)
  : Request :=
  {| apiKey := apiKeyOrEmpty key; model := modelName; text := prompt;
     aspectRatio := "1:1"; imageSize := size |}.

(** The [size] parameter defaults to ['1K'] when omitted. *)
Definition generateImage (prompt : string) (size : option ImageSize) : M string :=
  let size := default S1K size in
  w ← getWorld;
  tryCatch
    (response ← callGenerateContent (requestFor (API_KEY w) prompt size);
     imageUrl ← liftCompletion (findImageUrl response);
     if String.eqb imageUrl "" then
       throw (Error "No image generated in response")
     else mret imageUrl)
    (fun error => consoleError (Some "Gemini API Error:") error;; throw error).

(** ** The stores behind [updateUserCredits] and [saveImage] *)

(** The balance the account store holds for an account (0 for an account it
    does not hold). *)
Definition balanceOf (store : gmap string Z) (userId : string) : Z :=
  default 0 (store !! userId).

(** Modelled from the spec: the account store's [debit(accountId, amount)],
    whose source (services/mockBackend) is not part of this development. It
    takes [amount] off the balance, never lets the balance go below zero, and
    returns the updated account. *)
Definition debit (store : gmap string Z) (userId : string) (amount : Z)
  : gmap string Z * User :=
  let balance := Z.max 0 (balanceOf store userId - amount) in
  (<[userId := balance]> store, {| id := userId; credits := balance |}).

(** [updateUserCredits(userId, amount, 'subtract')] is that debit. *)
Definition updateUserCredits (userId : string) (amount : Z) (op : CreditOp)
  : M User :=
  emit (EvUpdateUserCredits userId amount op);;
  w ← getWorld;
  match op with
  | Subtract =>
      let '(store, updated) := debit (accounts w) userId amount in
      modifyWorld (withAccounts store);;
      mret updated
  end.

(** Modelled from the spec: the history store's
    [append(accountId, prompt, imageReference, modelIdentifier, resolution)],
    whose source (services/mockBackend) is not part of this development. The
    log is append-only and every entry carries the time it was written. *)
Definition append (h : list HistoryEntry) (now : Z)
    (userId prompt imageUrl model : string) (size : ImageSize)
  : list HistoryEntry :=
  h ++ [ {| accountId := userId; entryPrompt := prompt;
            imageReference := imageUrl; modelIdentifier := model;
            resolution := size; timestamp := now |} ].

Definition saveImage (userId prompt imageUrl model : string) (size : ImageSize)
  : M unit :=
  emit (EvSaveImage userId prompt imageUrl model size);;
  modifyWorld (fun w =>
    withHistory (append (history w) (clock w) userId prompt imageUrl model size) w).

(** ** The credential gate: [handleSelectKey] *)

(** The mount effect's [checkKey]: ask the selector whether a key is
    selected; without a selector the key is taken to be there. *)
Definition checkKey : M unit :=
  tryCatch
    (w ← getWorld;
     match aistudio w with
     | Some aiStudio =>
         match hasSelectedApiKey aiStudio with
         | Some answer =>
             emit EvHasSelectedApiKey;;
             hasKey ← liftCompletion answer;
             setHasApiKey hasKey
         | None => setHasApiKey true
         end
     | None => setHasApiKey true
     end)
    (fun e => consoleError (Some "Error checking API key status") e).

(** [await aiStudio.openSelectKey()]: the world counts the invocations and
    answers each one. *)
Definition callOpenSelectKey (a : AiStudio) : M unit :=
  match openSelectKey a with
  | None => throw (TypeErrorNotAFunction "aiStudio.openSelectKey")
  | Some answer =>
      w ← getWorld;
      emit EvOpenSelectKey;;
      modifyWorld (withSelectCalls (S (selectCalls w)));;
      match answer (selectCalls w) with
      | None => mret tt
      | Some e => throw e
      end
  end.

Definition entityNotFound : string := "Requested entity was not found".

(** [e.message && e.message.includes("Requested entity was not found")],
    for an [e] that is an object. *)
Definition isEntityNotFound (e : JsError) : bool :=
  negb (String.eqb (message e) "") && includes entityNotFound (message e).

(** The catch reads [e.message]: on a rejection with [undefined] or [null]
    that read throws in its turn, out of the handler. *)
Definition handleSelectKey : M unit :=
  tryCatch
    (w ← getWorld;
     match aistudio w with
     | Some aiStudio =>
         if bool_decide (is_Some (openSelectKey aiStudio)) then
           callOpenSelectKey aiStudio;;
           setHasApiKey true
         else mret tt
     | None => mret tt
     end)
    (fun e =>
       match e with
       | ErrorValue err =>
           if isEntityNotFound err then
             setHasApiKey false;;
             alert "Please select a valid API key again.";;
             w ← getWorld;
             match aistudio w with
             | Some aiStudio => callOpenSelectKey aiStudio
             | None => mret tt
             end;;
             setHasApiKey true
           else consoleError None e
       | Undefined => throw (TypeErrorReading "message")
       | Null => throw (TypeErrorReadingNull "message")
       end).

(** ** The generation controller: [handleGenerate] *)

Section Controller.

(** [IMAGE_COST] of the constants module: the fixed price of one image. *)
Variable IMAGE_COST : Z.

Definition notEnoughCredits : string :=
  "Not enough credits. You need " ++ numberToString IMAGE_COST ++
  " credits to generate an image.".

Definition generationFailed : string :=
  "Failed to generate image. Please try again or check your API key settings.".

(** The handler closes over the values of the render it was created in
    ([c]); the setters act on the live state. *)
Definition handleGenerate : M unit :=
  c ← getComp;
  preventDefault;;
  match user c with
  | None => mret tt
  | Some u =>
      if (credits u <? IMAGE_COST)%Z then
        setError notEnoughCredits
      else
        w ← getWorld;
        (if negb (hasApiKey c) && bool_decide (is_Some (aistudio w))
         then handleSelectKey else mret tt);;
        setIsGenerating true;;
        setError "";;
        setGeneratedImage None;;
        tryFinally
          (tryCatch
             (imageUrl ← generateImage (prompt c) (Some (size c));
              setGeneratedImage (Some imageUrl);;
              updatedUser ← updateUserCredits (id u) IMAGE_COST Subtract;
              setUser (Some updatedUser);;
              dispatchEvent "user-updated";;
              saveImage (id u) (prompt c) imageUrl modelName (size c))
             (fun err =>
                consoleError None err;;
                setError generationFailed))
          (setIsGenerating false)
  end.

End Controller.

(** ** What the component renders *)

Section Render.

Variable IMAGE_COST : Z.

(** The [disabled] prop of the submit button (line 239). Without a user,
    [user?.credits! < IMAGE_COST] compares [undefined] and is false. *)
Definition submitDisabled (c : Generator) (w : World) : bool :=
  (negb (hasApiKey c) && bool_decide (is_Some (aistudio w))) ||
  match user c with
  | Some u => (credits u <? IMAGE_COST)%Z
  | None => false
  end.

End Render.

(** The "API Key Required" banner (line 183). *)
Definition keyBannerShown (c : Generator) (w : World) : bool :=
  negb (hasApiKey c) && bool_decide (is_Some (aistudio w)).

(** The preview pane (lines 248-272): the pulsing placeholder while
    generating, else the image when [generatedImage] is truthy, else the
    invitation text. *)
Inductive Preview :=
| Dreaming
| Picture (src : string)
| Invitation.

Definition preview (c : Generator) : Preview :=
  if isGenerating c then Dreaming
  else match generatedImage c with
       | Some src => if String.eqb src "" then Invitation else Picture src
       | None => Invitation
       end.

(** The error line (line 232): [{error && <div>{error}</div>}]. *)
Definition errorLine (c : Generator) : option string :=
  if String.eqb (error c) "" then None else Some (error c).

(** ** Vocabulary of the properties *)

(** Kinds of events, to count them. *)
Definition isRequest (ev : Event) : bool :=
  match ev with EvGenerateContent _ => true | _ => false end.
Definition isDebit (ev : Event) : bool :=
  match ev with EvUpdateUserCredits _ _ _ => true | _ => false end.
Definition isSave (ev : Event) : bool :=
  match ev with EvSaveImage _ _ _ _ _ => true | _ => false end.
Definition isSelection (ev : Event) : bool :=
  match ev with EvOpenSelectKey => true | _ => false end.

Definition countEvents (kind : Event -> bool) (evs : list Event) : nat :=
  length (List.filter kind evs).

(** The system after [evs] have been observed. *)
Definition logged (evs : list Event) (s : Sys) : Sys :=
  {| comp := comp s; world := withLog (log (world s) ++ evs) (world s) |}.

(** The credential step of [handleGenerate] (lines 140-144), as it runs
    after [preventDefault]. *)
Definition gateOf (s : Sys) : Completion unit * Sys :=
  (if negb (hasApiKey (comp s)) && bool_decide (is_Some (aistudio (world s)))
   then handleSelectKey else mret tt) (logged [EvPreventDefault] s).

(** What the client makes of the service's answer. *)
Definition clientOutcome (answer : Completion Response) : Completion string :=
  match answer with
  | Throw e => Throw e
  | Normal response =>
      match findImageUrl response with
      | Throw e => Throw e
      | Normal imageUrl =>
          if String.eqb imageUrl "" then Throw (Error "No image generated in response")
          else Normal imageUrl
      end
  end.

(** Events of the credential gate. *)
Definition gateEvent (ev : Event) : Prop :=
  match ev with
  | EvOpenSelectKey | EvAlert _ | EvConsoleError _ _ => True
  | _ => False
  end.

(** Events of the two stores. *)
Definition storeEvent (ev : Event) : Prop :=
  match ev with
  | EvUpdateUserCredits _ _ _ | EvSaveImage _ _ _ _ _ => True
  | _ => False
  end.

(** A part that carries no inline image. *)
Definition plain (part : Part) : Prop := inlineData part = None.

(** The parts of one candidate, and every image payload a response
    carries, over all its candidates, in order. *)
Definition partsOf (c : Candidate) : list Part :=
  match content c with
  | Some ct => default [] (parts ct)
  | None => []
  end.

Definition imagePayloads (response : Response) : list string :=
  data <$> omap inlineData (mjoin (partsOf <$> default [] (candidates response))).

(** The controller's copy of the account agrees with the account store. *)
Definition inSync (s : Sys) : Prop :=
  forall u, user (comp s) = Some u -> accounts (world s) !! id u = Some (credits u).

(** ** Sample systems *)

Definition imagePart (payload : string) : Part :=
  {| inlineData := Some {| data := payload |} |}.
Definition textPart : Part := {| inlineData := None |}.

(** A response with one candidate per list of parts. *)
Definition responseOf (cs : list (list Part)) : Response :=
  {| candidates :=
       Some ((fun ps => {| content := Some {| parts := Some ps |} |}) <$> cs) |}.

Definition studioAnswering (answer : nat -> option Thrown) : AiStudio :=
  {| hasSelectedApiKey := Some (Normal false); openSelectKey := Some answer |}.

(** A system whose only account ["u1"] holds [balance] credits, with the
    prompt ["a cat"] typed in at size 2K. *)
Definition sampleSys (studio : option AiStudio) (hasKey : bool)
    (answer : Completion Response) (loaded : bool) (balance : Z) : Sys :=
  {| comp := {| prompt := "a cat"; size := S2K; isGenerating := false;
                generatedImage := None; error := "";
                user := if loaded then Some {| id := "u1"; credits := balance |}
                        else None;
                hasApiKey := hasKey |};
     world := {| aistudio := studio; API_KEY := None;
                 generateContent := fun _ => answer; clock := 1700000000000;
                 selectCalls := 0; accounts := {[ "u1" := balance ]};
                 history := []; log := [] |} |}.

(** The same system with a key selected and an image on its way, where the
    controller's copy of the account says [copy] credits while the account
    store holds [held]. *)
Definition staleSys (copy held : Z) : Sys :=
  {| comp := {| prompt := "a cat"; size := S2K; isGenerating := false;
                generatedImage := None; error := "";
                user := Some {| id := "u1"; credits := copy |};
                hasApiKey := true |};
     world := {| aistudio := None; API_KEY := None;
                 generateContent :=
                   fun _ => Normal (responseOf [[imagePart "AAAA"]]);
                 clock := 1700000000000;
                 selectCalls := 0; accounts := {[ "u1" := held ]};
                 history := []; log := [] |} |}.

(** A key selector that rejects its first invocation with [e] and resolves
    every later one. *)
Definition rejectFirst (e : Thrown) (n : nat) : option Thrown :=
  match n with
  | O => Some e
  | S _ => None
  end.

(** A key selector that rejects every invocation with [e]. *)
Definition rejectAlways (e : Thrown) (n : nat) : option Thrown := Some e.

Definition cancelError : JsError := Error "The user closed the dialog".

Definition quotaError : JsError :=
  {| name := "ApiError"; message := "429 RESOURCE_EXHAUSTED" |}.

Definition notFoundError : JsError :=
  Error "Requested entity was not found.".

(** * Properties *)

Open Scope list_scope.

(** ** Running the monad *)

Ltac run_monad :=
  unfold mbind, M_bind, mret, M_ret, throw, tryCatch, tryFinally,
    liftCompletion, consoleError, alert, dispatchEvent, preventDefault, emit,
    setIsGenerating, setGeneratedImage, setError, setUser, setHasApiKey,
    getComp, getWorld, modifyComp, modifyWorld; cbn.

(** [generateImage] issues one request, and logs the error when it fails. *)
Lemma generateImage_run prompt size s :
  let req := requestFor (API_KEY (world s)) prompt (default S1K size) in
  let out := clientOutcome (generateContent (world s) req) in
  generateImage prompt size s =
  (out,
   logged (EvGenerateContent req ::
           match out with
           | Normal _ => []
           | Throw e => [EvConsoleError (Some "Gemini API Error:") e]
           end) s).
Proof.
  unfold generateImage, callGenerateContent, clientOutcome, logged. run_monad.
  destruct (generateContent (world s) _) as [response|e]; cbn.
  - destruct (findImageUrl response) as [url|e]; cbn.
    + destruct (String.eqb url ""); cbn; [|done].
      unfold withLog; cbn. by rewrite <- app_assoc.
    + unfold withLog; cbn. by rewrite <- app_assoc.
  - unfold withLog; cbn. by rewrite <- app_assoc.
Qed.

(** ** The request client *)

Lemma scanParts_plain ps acc :
  Forall plain ps -> scanParts ps acc = acc.
Proof.
  induction 1 as [|part rest Hpart _ IH]; cbn; [done|].
  unfold plain in Hpart. by rewrite Hpart.
Qed.

Lemma scanParts_first pre blob post acc :
  Forall plain pre ->
  scanParts (pre ++ {| inlineData := Some blob |} :: post) acc
  = ("data:image/png;base64," ++ data blob)%string.
Proof.
  induction 1 as [|part rest Hpart _ IH]; cbn; [done|].
  unfold plain in Hpart. by rewrite Hpart.
Qed.

(** A scan that changes [imageUrl] has found a first image part. *)
Lemma scanParts_found ps acc :
  scanParts ps acc <> acc ->
  exists pre blob post,
    ps = (pre ++ {| inlineData := Some blob |} :: post) /\
    Forall plain pre /\
    scanParts ps acc = ("data:image/png;base64," ++ data blob)%string.
Proof.
  induction ps as [|[[blob|]] rest IH]; cbn; intros Hne; [done| |].
  - exists [], blob, rest. by repeat split.
  - destruct (IH Hne) as (pre & blob & post & -> & Hpre & Hscan).
    exists ({| inlineData := None |} :: pre), blob, post.
    split; [done|]. split; [|done]. by constructor.
Qed.

(** The client's outcome when the first candidate's parts hold an image. *)
Lemma clientOutcome_image c rest ct pre blob post :
  content c = Some ct ->
  parts ct = Some (pre ++ {| inlineData := Some blob |} :: post) ->
  Forall plain pre ->
  clientOutcome (Normal {| candidates := Some (c :: rest) |})
  = Normal ("data:image/png;base64," ++ data blob)%string.
Proof.
  intros Hc Hp Hpre. unfold clientOutcome, findImageUrl; cbn.
  rewrite Hc, Hp. by rewrite scanParts_first.
Qed.

(** Every success of the client stems from the first candidate's parts. *)
Lemma clientOutcome_normal answer imageUrl :
  clientOutcome answer = Normal imageUrl ->
  exists c rest ct pre blob post,
    answer = Normal {| candidates := Some (c :: rest) |} /\
    content c = Some ct /\
    parts ct = Some (pre ++ {| inlineData := Some blob |} :: post) /\
    Forall plain pre /\
    imageUrl = ("data:image/png;base64," ++ data blob)%string.
Proof.
  unfold clientOutcome, findImageUrl.
  destruct answer as [[[[|c rest]|]]|e]; cbn; try done.
  destruct (content c) as [[[ps|]]|] eqn:Hc; cbn; try done.
  destruct (String.eqb (scanParts ps "") "") eqn:Heq; [done|].
  intros [= <-]. apply String.eqb_neq in Heq.
  destruct (scanParts_found _ _ Heq) as (pre & blob & post & -> & Hpre & Hscan).
  exists c, rest, {| parts := Some (pre ++ {| inlineData := Some blob |} :: post) |},
    pre, blob, post.
  by repeat split.
Qed.

(** The outcomes the client reports as "no image": the candidates are
    absent, or the first candidate's parts are absent or all plain. *)
Lemma clientOutcome_no_image response :
  candidates response = None \/
  (exists c rest ct,
     candidates response = Some (c :: rest) /\ content c = Some ct /\
     (parts ct = None \/ exists ps, parts ct = Some ps /\ Forall plain ps)) ->
  clientOutcome (Normal response) = Throw (Error "No image generated in response").
Proof.
  unfold clientOutcome, findImageUrl.
  intros [->|(c & rest & ct & -> & Hc & [Hp|(ps & Hp & Hplain)])]; cbn; [done| |].
  - by rewrite Hc, Hp.
  - rewrite Hc, Hp. by rewrite scanParts_plain.
Qed.

(** C4 (as amended). When the first candidate's content parts hold at
    least one part with inline data, the client returns the payload of the
    first such part, appended as it is (no base64 decoding) to the fixed
    PNG data-URI header; the parts after it are not looked at, and nothing
    but the request is logged. *)
Theorem first_image_part_is_returned prompt size s c rest ct pre blob post :
  generateContent (world s)
    (requestFor (API_KEY (world s)) prompt (default S1K size))
  = Normal {| candidates := Some (c :: rest) |} ->
  content c = Some ct ->
  parts ct = Some (pre ++ {| inlineData := Some blob |} :: post) ->
  Forall plain pre ->
  generateImage prompt size s =
  (Normal ("data:image/png;base64," +:+ data blob),
   logged [EvGenerateContent
             (requestFor (API_KEY (world s)) prompt (default S1K size))] s).
Proof.
  intros Hans Hc Hp Hpre. rewrite generateImage_run; cbn. rewrite Hans.
  by rewrite (clientOutcome_image c rest ct pre blob post).
Qed.

(** C6. An error thrown by the SDK call reaches the caller of
    [generateImage] as the very same value: the client logs it to the
    console and rethrows it. *)
Theorem upstream_error_is_rethrown prompt size s e :
  generateContent (world s)
    (requestFor (API_KEY (world s)) prompt (default S1K size))
  = Throw e ->
  generateImage prompt size s =
  (Throw e,
   logged [EvGenerateContent
             (requestFor (API_KEY (world s)) prompt (default S1K size));
           EvConsoleError (Some "Gemini API Error:") e] s).
Proof. intros Hans. rewrite generateImage_run; cbn. by rewrite Hans. Qed.

Lemma apiKeyOrEmpty_default key : apiKeyOrEmpty key = default "" key.
Proof.
  destruct key as [k|]; cbn; [|done].
  destruct (String.eqb k "") eqn:Hk; [|done]. by apply String.eqb_eq in Hk.
Qed.

(** C8 (as amended). The client checks nothing before it calls the
    service: whatever the prompt (the empty one included), the first thing
    every call does is to send one request that carries the prompt as
    given, the requested tier (1K when omitted; the type has the three
    tiers only), and the configured key, or the empty string when no key
    is configured. The only other effect is the console line of a failed
    call. *)
Theorem request_is_sent_unvalidated prompt size s :
  (forall tier : ImageSize, tier = S1K \/ tier = S2K \/ tier = S4K) /\
  exists out evs,
    generateImage prompt size s =
    (out,
     logged (EvGenerateContent
               {| apiKey := default "" (API_KEY (world s));
                  model := "gemini-3-pro-image-preview";
                  text := prompt;
                  aspectRatio := "1:1";
                  imageSize := default S1K size |} :: evs) s) /\
    match out with
    | Normal _ => evs = []
    | Throw e => evs = [EvConsoleError (Some "Gemini API Error:") e]
    end.
Proof.
  split; [by intros []; auto|].
  rewrite generateImage_run; cbn. unfold requestFor, modelName.
  rewrite apiKeyOrEmpty_default. eexists _, _. split; [done|].
  by destruct (clientOutcome _).
Qed.

(** C9. Whenever the client succeeds, the image it returns is the first
    inline-data part of the FIRST candidate's content parts: the list of
    candidates is not empty, its first candidate has content with parts,
    and the later candidates play no role. *)
Theorem success_stems_from_first_candidate prompt size s response imageUrl :
  generateContent (world s)
    (requestFor (API_KEY (world s)) prompt (default S1K size))
  = Normal response ->
  fst (generateImage prompt size s) = Normal imageUrl ->
  exists c rest ct pre blob post,
    candidates response = Some (c :: rest) /\
    content c = Some ct /\
    parts ct = Some (pre ++ {| inlineData := Some blob |} :: post) /\
    Forall plain pre /\
    imageUrl = "data:image/png;base64," +:+ data blob.
Proof.
  intros Hans. rewrite generateImage_run; cbn. rewrite Hans. intros Hout.
  destruct (clientOutcome_normal _ _ Hout)
    as (c & rest & ct & pre & blob & post & [= ->] & Hc & Hp & Hpre & ->).
  by exists c, rest, ct, pre, blob, post.
Qed.

(** X1. Where the first candidate can be read and holds no image part
    (its parts are absent, empty or all without inline data), or the
    candidates are absent altogether, the client fails with its own error,
    "No image generated in response". *)
Lemma image_less_first_candidate_is_reported prompt size s response :
  generateContent (world s)
    (requestFor (API_KEY (world s)) prompt (default S1K size))
  = Normal response ->
  candidates response = None \/
  (exists c rest ct,
     candidates response = Some (c :: rest) /\ content c = Some ct /\
     (parts ct = None \/ exists ps, parts ct = Some ps /\ Forall plain ps)) ->
  fst (generateImage prompt size s) = Throw (Error "No image generated in response").
Proof.
  intros Hans Hnone. rewrite generateImage_run; cbn. rewrite Hans.
  by apply clientOutcome_no_image.
Qed.

(** Two answers that agree on their first candidate are told apart by
    nothing the client returns. *)
Lemma later_candidates_are_ignored c rest1 rest2 :
  clientOutcome (Normal {| candidates := Some (c :: rest1) |})
  = clientOutcome (Normal {| candidates := Some (c :: rest2) |}).
Proof. done. Qed.

(** ** The credential gate *)

(** Whatever happens in [handleSelectKey], it only talks to the key
    selector, the console and the alert box, and of the component state it
    only sets [hasApiKey]. *)
Lemma handleSelectKey_frame s :
  let s' := snd (handleSelectKey s) in
  (aistudio (world s') = aistudio (world s) /\
   API_KEY (world s') = API_KEY (world s) /\
   generateContent (world s') = generateContent (world s) /\
   clock (world s') = clock (world s) /\
   accounts (world s') = accounts (world s) /\
   history (world s') = history (world s)) /\
  (prompt (comp s') = prompt (comp s) /\
   size (comp s') = size (comp s) /\
   isGenerating (comp s') = isGenerating (comp s) /\
   generatedImage (comp s') = generatedImage (comp s) /\
   error (comp s') = error (comp s) /\
   user (comp s') = user (comp s)) /\
  exists evs, log (world s') = log (world s) ++ evs /\ Forall gateEvent evs.
Proof.
  unfold handleSelectKey, callOpenSelectKey. run_monad.
  destruct (aistudio (world s)) as [a|] eqn:Ha; cbn.
  2:{ split_and!; try done. exists []. by rewrite app_nil_r. }
  destruct (openSelectKey a) as [answer|] eqn:Hopen; cbn.
  2:{ split_and!; try done. exists []. by rewrite app_nil_r. }
  destruct (answer (selectCalls (world s))) as [[e| |]|]; cbn.
  4:{ split_and!; try done. exists [EvOpenSelectKey]. split; [done|].
      repeat constructor. }
  2,3: split_and!; try done; exists [EvOpenSelectKey]; split; [done|];
       repeat constructor.
  destruct (isEntityNotFound e); cbn.
  2:{ split_and!; try done. exists [EvOpenSelectKey; EvConsoleError None e].
      rewrite <- app_assoc. split; [done|]. repeat constructor. }
  rewrite Ha; cbn. rewrite Hopen; cbn.
  destruct (answer (S (selectCalls (world s)))) as [e'|]; cbn.
  all: split_and!; try done.
  all: exists [EvOpenSelectKey; EvAlert "Please select a valid API key again.";
               EvOpenSelectKey].
  all: rewrite <- !app_assoc; split; [done|]; repeat constructor.
Qed.

(** Without a key selector in the window, the mount check takes the key
    to be selected. *)
Lemma checkKey_without_selector s :
  aistudio (world s) = None ->
  fst (checkKey s) = Normal tt /\
  hasApiKey (comp (snd (checkKey s))) = true /\
  world (snd (checkKey s)) = world s.
Proof. intros Ha. unfold checkKey. run_monad. by rewrite Ha. Qed.

(** A first selection that fails with "entity not found" is followed by
    the alert and by exactly one more selection, whose outcome is the
    outcome of the handler. *)
Lemma handleSelectKey_retry s a answer (e : JsError) :
  aistudio (world s) = Some a ->
  openSelectKey a = Some answer ->
  answer (selectCalls (world s)) = Some (ErrorValue e) ->
  isEntityNotFound e = true ->
  handleSelectKey s =
  (match answer (S (selectCalls (world s))) with
   | None => Normal tt
   | Some e' => Throw e'
   end,
   {| comp := {| prompt := prompt (comp s); size := size (comp s);
                 isGenerating := isGenerating (comp s);
                 generatedImage := generatedImage (comp s);
                 error := error (comp s); user := user (comp s);
                 hasApiKey :=
                   match answer (S (selectCalls (world s))) with
                   | None => true
                   | Some _ => false
                   end |};
      world := withSelectCalls (S (S (selectCalls (world s))))
                 (withLog (log (world s) ++
                           [EvOpenSelectKey;
                            EvAlert "Please select a valid API key again.";
                            EvOpenSelectKey]) (world s)) |}).
Proof.
  intros Ha Hopen Hfirst Hnf. unfold handleSelectKey, callOpenSelectKey.
  run_monad. rewrite Ha; cbn. rewrite Hopen; cbn. rewrite Hfirst; cbn.
  rewrite Hnf; cbn. rewrite Ha; cbn. rewrite Hopen; cbn.
  destruct (answer (S (selectCalls (world s)))) as [e'|]; cbn.
  all: unfold withSelectCalls, withLog; cbn; by rewrite <- !app_assoc.
Qed.

(** ** The generation controller *)

Section ControllerProperties.

Variable IMAGE_COST : Z.

Lemma handleGenerate_no_user s :
  user (comp s) = None ->
  handleGenerate IMAGE_COST s = (Normal tt, logged [EvPreventDefault] s).
Proof. intros Hu. unfold handleGenerate. run_monad. by rewrite Hu. Qed.

Lemma handleGenerate_rejected s u :
  user (comp s) = Some u ->
  credits u < IMAGE_COST ->
  handleGenerate IMAGE_COST s =
  (Normal tt,
   {| comp := {| prompt := prompt (comp s); size := size (comp s);
                 isGenerating := isGenerating (comp s);
                 generatedImage := generatedImage (comp s);
                 error := notEnoughCredits IMAGE_COST;
                 user := user (comp s); hasApiKey := hasApiKey (comp s) |};
      world := withLog (log (world s) ++ [EvPreventDefault]) (world s) |}).
Proof.
  intros Hu Hlt. unfold handleGenerate. run_monad. rewrite Hu.
  apply Z.ltb_lt in Hlt. rewrite Hlt. cbn. by rewrite Hu.
Qed.

Lemma handleGenerate_gate_throws s u e s1 :
  user (comp s) = Some u ->
  IMAGE_COST <= credits u ->
  gateOf s = (Throw e, s1) ->
  handleGenerate IMAGE_COST s = (Throw e, s1).
Proof.
  intros Hu Hge Hgate. unfold handleGenerate. run_monad. rewrite Hu.
  apply Z.ltb_ge in Hge. rewrite Hge. cbn.
  unfold gateOf, logged, mret, M_ret in Hgate. cbn in Hgate. by rewrite Hgate.
Qed.

Lemma handleGenerate_generates s u s1 :
  user (comp s) = Some u ->
  IMAGE_COST <= credits u ->
  gateOf s = (Normal tt, s1) ->
  let req := requestFor (API_KEY (world s1)) (prompt (comp s)) (size (comp s)) in
  handleGenerate IMAGE_COST s =
  (Normal tt,
   match clientOutcome (generateContent (world s1) req) with
   | Normal imageUrl =>
       let '(store, updated) := debit (accounts (world s1)) (id u) IMAGE_COST in
       {| comp := {| prompt := prompt (comp s1); size := size (comp s1);
                     isGenerating := false;
                     generatedImage := Some imageUrl;
                     error := "";
                     user := Some updated;
                     hasApiKey := hasApiKey (comp s1) |};
          world := {| aistudio := aistudio (world s1);
                      API_KEY := API_KEY (world s1);
                      generateContent := generateContent (world s1);
                      clock := clock (world s1);
                      selectCalls := selectCalls (world s1);
                      accounts := store;
                      history := append (history (world s1)) (clock (world s1))
                                   (id u) (prompt (comp s)) imageUrl modelName
                                   (size (comp s));
                      log := log (world s1) ++
                             [EvGenerateContent req;
                              EvUpdateUserCredits (id u) IMAGE_COST Subtract;
                              EvDispatchEvent "user-updated";
                              EvSaveImage (id u) (prompt (comp s)) imageUrl
                                modelName (size (comp s))] |} |}
   | Throw err =>
       {| comp := {| prompt := prompt (comp s1); size := size (comp s1);
                     isGenerating := false;
                     generatedImage := None;
                     error := generationFailed;
                     user := user (comp s1);
                     hasApiKey := hasApiKey (comp s1) |};
          world := withLog (log (world s1) ++
                            [EvGenerateContent req;
                             EvConsoleError (Some "Gemini API Error:") err;
                             EvConsoleError None err]) (world s1) |}
   end).
Proof.
  intros Hu Hge Hgate req. unfold handleGenerate. run_monad. rewrite Hu.
  apply Z.ltb_ge in Hge. rewrite Hge. cbn.
  unfold gateOf, logged, mret, M_ret in Hgate. cbn in Hgate. rewrite Hgate.
  rewrite generateImage_run. cbn. fold req.
  destruct (clientOutcome (generateContent (world s1) req)) as [url|err]; cbn.
  - unfold updateUserCredits, saveImage, debit. run_monad.
    unfold withLog, append; cbn. by rewrite <- !app_assoc.
  - unfold withLog; cbn. by rewrite <- !app_assoc.
Qed.

(** The credential step leaves the stores, the service and the user record
    alone. *)
Lemma gate_frame s :
  let s1 := snd (gateOf s) in
  (aistudio (world s1) = aistudio (world s) /\
   API_KEY (world s1) = API_KEY (world s) /\
   generateContent (world s1) = generateContent (world s) /\
   clock (world s1) = clock (world s) /\
   accounts (world s1) = accounts (world s) /\
   history (world s1) = history (world s)) /\
  (prompt (comp s1) = prompt (comp s) /\
   size (comp s1) = size (comp s) /\
   isGenerating (comp s1) = isGenerating (comp s) /\
   generatedImage (comp s1) = generatedImage (comp s) /\
   error (comp s1) = error (comp s) /\
   user (comp s1) = user (comp s)) /\
  exists evs,
    log (world s1) = log (world s) ++ EvPreventDefault :: evs /\
    Forall gateEvent evs.
Proof.
  unfold gateOf.
  destruct (negb (hasApiKey (comp s)) && bool_decide (is_Some (aistudio (world s)))).
  - pose proof (handleSelectKey_frame (logged [EvPreventDefault] s)) as Hf.
    cbn in Hf. destruct Hf as (Hw & Hc & evs & Hlog & Hevs).
    split; [done|]. split; [done|]. exists evs.
    rewrite Hlog, <- app_assoc. done.
  - cbn. split_and!; try done. by exists [].
Qed.

Lemma gate_result s : exists r s1, gateOf s = (r, s1) /\ s1 = snd (gateOf s).
Proof. destruct (gateOf s) as [r s1]. by exists r, s1. Qed.

(** C10. Without a loaded user record the handler stops right after
    [preventDefault]: the component state (error message included), the
    account store and the history are what they were, and neither the key
    selector nor the image service is called. *)
Theorem no_user_is_a_no_op s :
  user (comp s) = None ->
  fst (handleGenerate IMAGE_COST s) = Normal tt /\
  comp (snd (handleGenerate IMAGE_COST s)) = comp s /\
  accounts (world (snd (handleGenerate IMAGE_COST s))) = accounts (world s) /\
  history (world (snd (handleGenerate IMAGE_COST s))) = history (world s) /\
  selectCalls (world (snd (handleGenerate IMAGE_COST s))) = selectCalls (world s) /\
  log (world (snd (handleGenerate IMAGE_COST s))) = log (world s) ++ [EvPreventDefault].
Proof. intros Hu. by rewrite handleGenerate_no_user. Qed.

(** C2. With a balance below the image cost the submission is turned down
    on the spot: the only effect is [preventDefault] (no key selection, no
    request to the image service), the user record and both stores are
    unchanged, and the error message names the cost. *)
Theorem insufficient_credits_are_rejected s u :
  user (comp s) = Some u ->
  credits u < IMAGE_COST ->
  fst (handleGenerate IMAGE_COST s) = Normal tt /\
  log (world (snd (handleGenerate IMAGE_COST s))) = log (world s) ++ [EvPreventDefault] /\
  selectCalls (world (snd (handleGenerate IMAGE_COST s))) = selectCalls (world s) /\
  user (comp (snd (handleGenerate IMAGE_COST s))) = Some u /\
  accounts (world (snd (handleGenerate IMAGE_COST s))) = accounts (world s) /\
  history (world (snd (handleGenerate IMAGE_COST s))) = history (world s) /\
  error (comp (snd (handleGenerate IMAGE_COST s))) =
    "Not enough credits. You need " +:+ numberToString IMAGE_COST +:+
    " credits to generate an image.".
Proof.
  intros Hu Hlt. rewrite (handleGenerate_rejected s u Hu Hlt). cbn.
  by rewrite Hu.
Qed.

(** C1 (as amended). When the generation call succeeds, the handler asks
    the account store once for a debit of exactly the image cost: the
    store's balance after is its balance before less the cost whenever the
    store holds at least the cost (it never goes below zero otherwise), and
    the controller's copy of the user becomes what the store returns. The
    handler then appends exactly one history entry, with the submitted
    prompt, the requested size, the returned image reference and the model
    name; the debit comes first, then the broadcast, then the history
    write. *)
Theorem success_debits_and_records s u imageUrl :
  user (comp s) = Some u ->
  IMAGE_COST <= credits u ->
  fst (handleGenerate IMAGE_COST s) = Normal tt ->
  fst (generateImage (prompt (comp s)) (Some (size (comp s))) s) = Normal imageUrl ->
  let s' := snd (handleGenerate IMAGE_COST s) in
  let before := balanceOf (accounts (world s)) (id u) in
  let after := balanceOf (accounts (world s')) (id u) in
  (IMAGE_COST <= before -> after = before - IMAGE_COST) /\
  (before < IMAGE_COST -> after = 0) /\
  user (comp s') = Some {| id := id u; credits := after |} /\
  (forall other, other <> id u ->
     accounts (world s') !! other = accounts (world s) !! other) /\
  history (world s') =
    history (world s) ++
    [ {| accountId := id u; entryPrompt := prompt (comp s);
         imageReference := imageUrl;
         modelIdentifier := "gemini-3-pro-image-preview";
         resolution := size (comp s); timestamp := clock (world s) |} ] /\
  generatedImage (comp s') = Some imageUrl /\
  exists evs,
    Forall gateEvent evs /\
    log (world s') =
      log (world s) ++ EvPreventDefault :: evs ++
      [EvGenerateContent
         (requestFor (API_KEY (world s)) (prompt (comp s)) (size (comp s)));
       EvUpdateUserCredits (id u) IMAGE_COST Subtract;
       EvDispatchEvent "user-updated";
       EvSaveImage (id u) (prompt (comp s)) imageUrl
         "gemini-3-pro-image-preview" (size (comp s))].
Proof.
  intros Hu Hge Hres Hgen s' before after. subst s' before after.
  destruct (gate_result s) as (r & s1 & Hgate & Hs1).
  pose proof (gate_frame s) as Hframe. cbn zeta in Hframe. rewrite <- Hs1 in Hframe.
  destruct Hframe as ((_ & Hkey & Hsvc & Hclock & Hacc & Hhist) & _ & evs & Hlog & Hevs).
  destruct r as [[]|e].
  2:{ by rewrite (handleGenerate_gate_throws s u e s1 Hu Hge Hgate) in Hres. }
  rewrite (handleGenerate_generates s u s1 Hu Hge Hgate).
  rewrite generateImage_run in Hgen; cbn in Hgen.
  rewrite Hkey, Hsvc, Hgen. cbn.
  rewrite Hacc, Hhist, Hclock, Hlog. unfold append, modelName.
  assert (Hafter : forall b : Z,
            balanceOf (<[id u := b]> (accounts (world s))) (id u) = b).
  { intros b. unfold balanceOf. by rewrite lookup_insert_eq. }
  rewrite !Hafter.
  split_and!; try done; try lia.
  - intros other Hother. by rewrite lookup_insert_ne.
  - exists evs. split; [done|]. by rewrite <- app_assoc.
Qed.

(** C5 (as amended). A submission that passed the credit check and then
    failed, be it that the handler was rejected by the key selection or
    that it surfaced the generic failure message, has changed neither the
    account store nor the user record nor the history, and has called
    neither store. (A key selection error that [handleSelectKey] catches
    and logs fails neither: the run goes on to the generation.) *)
Theorem failure_leaves_account_and_history s u :
  user (comp s) = Some u ->
  IMAGE_COST <= credits u ->
  (exists e, fst (handleGenerate IMAGE_COST s) = Throw e) \/
  error (comp (snd (handleGenerate IMAGE_COST s))) = generationFailed ->
  let s' := snd (handleGenerate IMAGE_COST s) in
  accounts (world s') = accounts (world s) /\
  user (comp s') = Some u /\
  history (world s') = history (world s) /\
  exists evs,
    log (world s') = log (world s) ++ evs /\
    Forall (fun ev => ~ storeEvent ev) evs.
Proof.
  intros Hu Hge Hfail s'. subst s'.
  destruct (gate_result s) as (r & s1 & Hgate & Hs1).
  pose proof (gate_frame s) as Hframe. cbn zeta in Hframe. rewrite <- Hs1 in Hframe.
  destruct Hframe as ((_ & Hkey & Hsvc & Hclock & Hacc & Hhist) &
                      (_ & _ & _ & _ & _ & Huser) & evs & Hlog & Hevs).
  assert (Hgate_events : Forall (fun ev => ~ storeEvent ev) (EvPreventDefault :: evs)).
  { constructor; [by cbn; auto|]. eapply Forall_impl; [exact Hevs|].
    intros []; cbn; tauto. }
  destruct r as [[]|e].
  2:{ rewrite (handleGenerate_gate_throws s u e s1 Hu Hge Hgate). cbn.
      rewrite Huser, Hu. split_and!; try done. by eexists. }
  revert Hfail. rewrite (handleGenerate_generates s u s1 Hu Hge Hgate). cbn.
  destruct (clientOutcome _) as [url|err]; cbn.
  { intros [[e [=]]|[=]]. }
  intros _. rewrite Huser, Hu, Hlog. split_and!; try done.
  eexists. rewrite <- app_assoc. split; [done|].
  apply Forall_app. split; [done|]. repeat constructor; by cbn; auto.
Qed.

(** The controller's copy of the account keeps agreeing with the store. *)
Lemma handleGenerate_keeps_sync s :
  inSync s -> inSync (snd (handleGenerate IMAGE_COST s)).
Proof.
  unfold inSync. intros Hsync.
  destruct (user (comp s)) as [u|] eqn:Hu.
  2:{ rewrite (handleGenerate_no_user s Hu). cbn. by rewrite Hu. }
  destruct (Z.lt_ge_cases (credits u) IMAGE_COST) as [Hlt|Hge].
  { rewrite (handleGenerate_rejected s u Hu Hlt). cbn. by rewrite Hu. }
  destruct (gate_result s) as (r & s1 & Hgate & Hs1).
  pose proof (gate_frame s) as Hframe. cbn zeta in Hframe. rewrite <- Hs1 in Hframe.
  destruct Hframe as ((_ & _ & _ & _ & Hacc & _) & (_ & _ & _ & _ & _ & Huser) & _).
  destruct r as [[]|e].
  2:{ rewrite (handleGenerate_gate_throws s u e s1 Hu Hge Hgate). cbn.
      by rewrite Huser, Hacc, Hu. }
  rewrite (handleGenerate_generates s u s1 Hu Hge Hgate). cbn.
  destruct (clientOutcome _) as [url|err]; cbn.
  - intros u' [= <-]. cbn. by rewrite lookup_insert_eq.
  - by rewrite Huser, Hacc, Hu.
Qed.

(** C7. When the key selection that [handleGenerate] enforces fails with
    "Requested entity was not found", the selection is opened exactly once
    more, right after the alert: two selections in all. Generation starts
    only after that retry, when it resolves; when it rejects in its turn,
    the handler is rejected and nothing else happens. *)
Theorem entity_not_found_retries_selection_once s u a answer (e : JsError) :
  user (comp s) = Some u ->
  IMAGE_COST <= credits u ->
  hasApiKey (comp s) = false ->
  aistudio (world s) = Some a ->
  openSelectKey a = Some answer ->
  answer (selectCalls (world s)) = Some (ErrorValue e) ->
  isEntityNotFound e = true ->
  let s' := snd (handleGenerate IMAGE_COST s) in
  selectCalls (world s') = S (S (selectCalls (world s))) /\
  exists tail,
    log (world s') =
      log (world s) ++
      [EvPreventDefault; EvOpenSelectKey;
       EvAlert "Please select a valid API key again."; EvOpenSelectKey] ++ tail /\
    Forall (fun ev => ev <> EvOpenSelectKey) tail /\
    match answer (S (selectCalls (world s))) with
    | None =>
        fst (handleGenerate IMAGE_COST s) = Normal tt /\
        exists rest,
          tail = EvGenerateContent
                   (requestFor (API_KEY (world s)) (prompt (comp s))
                      (size (comp s))) :: rest
    | Some e' =>
        fst (handleGenerate IMAGE_COST s) = Throw e' /\ tail = []
    end.
Proof.
  intros Hu Hge Hkey Ha Hopen Hfirst Hnf s'. subst s'.
  assert (Hgate : gateOf s = handleSelectKey (logged [EvPreventDefault] s)).
  { unfold gateOf. by rewrite Hkey, Ha. }
  rewrite (handleSelectKey_retry (logged [EvPreventDefault] s) a answer e
             Ha Hopen Hfirst Hnf) in Hgate.
  cbn in Hgate.
  destruct (answer (S (selectCalls (world s)))) as [e'|].
  - rewrite (handleGenerate_gate_throws s u e' _ Hu Hge Hgate). cbn.
    split; [done|]. exists []. rewrite <- app_assoc. by split_and!.
  - rewrite (handleGenerate_generates s u _ Hu Hge Hgate). cbn.
    destruct (clientOutcome _) as [url|err]; cbn.
    + split; [done|]. eexists. rewrite <- !app_assoc. cbn. split; [done|].
      split; [by repeat constructor|]. split; [done|]. by eexists.
    + split; [done|]. eexists. rewrite <- !app_assoc. cbn. split; [done|].
      split; [by repeat constructor|]. split; [done|]. by eexists.
Qed.

End ControllerProperties.

(** ** The properties at work on sample systems *)

(** C3. A response whose first candidate has no content (or whose list of
    candidates is empty) carries no image part, yet the client does not
    fail with its "No image generated in response" error: reading the
    missing object throws a [TypeError], which is what the caller gets.
    The controller then debits nothing and records nothing. *)
Theorem unreadable_first_candidate_is_a_type_error :
  let blocked := {| candidates := Some [ {| content := None |} ] |} in
  let empty := {| candidates := Some [] |} in
  let s1 := sampleSys None true (Normal blocked) true 10 in
  let s2 := sampleSys None true (Normal empty) true 10 in
  (imagePayloads blocked = [] /\ imagePayloads empty = []) /\
  (fst (generateImage "a cat" (Some S2K) s1) = Throw (TypeErrorReading "parts") /\
   fst (generateImage "a cat" (Some S2K) s2) = Throw (TypeErrorReading "content")) /\
  (TypeErrorReading "parts" <> Error "No image generated in response" /\
   TypeErrorReading "content" <> Error "No image generated in response") /\
  (accounts (world (snd (handleGenerate 10 s1))) = accounts (world s1) /\
   history (world (snd (handleGenerate 10 s1))) = history (world s1)).
Proof. cbv zeta. split_and!; try reflexivity; discriminate. Qed.

(** C4, the claim as stated fails: this response carries an image part,
    in its second candidate, and the client reports that there is none. *)
Lemma image_in_second_candidate_is_missed :
  let response := responseOf [[textPart]; [imagePart "AAAA"]] in
  let s := sampleSys None true (Normal response) true 10 in
  imagePayloads response = ["AAAA"] /\
  fst (generateImage "a cat" (Some S2K) s)
  = Throw (Error "No image generated in response").
Proof. cbv zeta. split; reflexivity. Qed.

(** C8, the claim as stated fails: the empty prompt is not turned down, it
    is sent to the service, and the call succeeds. *)
Lemma empty_prompt_is_sent :
  let s := sampleSys None true (Normal (responseOf [[imagePart "AAAA"]])) true 10 in
  generateImage "" (Some S1K) s =
  (Normal "data:image/png;base64,AAAA",
   logged [EvGenerateContent
             {| apiKey := ""; model := "gemini-3-pro-image-preview";
                text := ""; aspectRatio := "1:1"; imageSize := S1K |}] s).
Proof. reflexivity. Qed.

(** C1, the claim as stated fails: the controller's copy says 10 credits,
    the account store holds 5, the cost is 10. The generation call
    succeeds, and the balance after is 0, not the balance before less the
    cost. *)
Lemma stale_copy_debit_stops_at_zero :
  let s := staleSys 10 5 in
  let s' := snd (handleGenerate 10 s) in
  fst (handleGenerate 10 s) = Normal tt /\
  fst (generateImage "a cat" (Some S2K) s) = Normal "data:image/png;base64,AAAA" /\
  generatedImage (comp s') = Some "data:image/png;base64,AAAA" /\
  balanceOf (accounts (world s)) "u1" = 5 /\
  balanceOf (accounts (world s')) "u1" = 0 /\
  balanceOf (accounts (world s')) "u1" <> balanceOf (accounts (world s)) "u1" - 10.
Proof. cbv zeta. split_and!; try reflexivity. vm_compute. discriminate. Qed.

(** C5, the claim as stated fails: the submission passes the credit check,
    its key selection fails (the selector rejects, the error goes to the
    console), and the run goes on to generate, debit and record. *)
Lemma swallowed_selection_failure_still_debits :
  let s := sampleSys (Some (studioAnswering (rejectFirst cancelError))) false
             (Normal (responseOf [[imagePart "AAAA"]])) true 10 in
  let s' := snd (handleGenerate 10 s) in
  log (world s') =
    [EvPreventDefault; EvOpenSelectKey; EvConsoleError None cancelError;
     EvGenerateContent
       {| apiKey := ""; model := "gemini-3-pro-image-preview";
          text := "a cat"; aspectRatio := "1:1"; imageSize := S2K |};
     EvUpdateUserCredits "u1" 10 Subtract;
     EvDispatchEvent "user-updated";
     EvSaveImage "u1" "a cat" "data:image/png;base64,AAAA"
       "gemini-3-pro-image-preview" S2K] /\
  balanceOf (accounts (world s)) "u1" = 10 /\
  balanceOf (accounts (world s')) "u1" = 0 /\
  length (history (world s')) = 1%nat.
Proof. cbv zeta. split_and!; reflexivity. Qed.

Lemma first_image_part_is_returned_witness :
  let response := responseOf [[textPart; imagePart "AAAA"; imagePart "BBBB"];
                              [imagePart "CCCC"]] in
  let s := sampleSys None true (Normal response) true 10 in
  fst (generateImage "a cat" (Some S2K) s) = Normal "data:image/png;base64,AAAA".
Proof.
  cbv zeta.
  rewrite (first_image_part_is_returned "a cat" (Some S2K) _
             {| content := Some {| parts := Some [textPart; imagePart "AAAA";
                                                  imagePart "BBBB"] |} |}
             [ {| content := Some {| parts := Some [imagePart "CCCC"] |} |} ]
             {| parts := Some [textPart; imagePart "AAAA"; imagePart "BBBB"] |}
             [textPart] {| data := "AAAA" |} [imagePart "BBBB"]).
  - reflexivity.
  - reflexivity.
  - reflexivity.
  - reflexivity.
  - repeat constructor.
Defined.

Lemma upstream_error_is_rethrown_witness :
  let s := sampleSys None true (Throw quotaError) true 10 in
  fst (generateImage "a cat" (Some S2K) s) = Throw quotaError.
Proof.
  cbv zeta.
  rewrite (upstream_error_is_rethrown "a cat" (Some S2K) _ quotaError).
  - reflexivity.
  - reflexivity.
Defined.

Lemma success_stems_from_first_candidate_witness :
  let response := responseOf [[textPart; imagePart "AAAA"]; [imagePart "BBBB"]] in
  let s := sampleSys None true (Normal response) true 10 in
  exists c rest ct pre blob post,
    candidates response = Some (c :: rest) /\
    content c = Some ct /\
    parts ct = Some (pre ++ {| inlineData := Some blob |} :: post) /\
    Forall plain pre /\
    "data:image/png;base64,AAAA" = "data:image/png;base64," +:+ data blob.
Proof.
  cbv zeta.
  apply (success_stems_from_first_candidate "a cat" (Some S2K)
           (sampleSys None true
              (Normal (responseOf [[textPart; imagePart "AAAA"];
                                   [imagePart "BBBB"]])) true 10)).
  - reflexivity.
  - reflexivity.
Defined.

Lemma no_user_is_a_no_op_witness :
  let s := sampleSys None true (Normal (responseOf [[imagePart "AAAA"]])) false 10 in
  user (comp s) = None /\
  comp (snd (handleGenerate 10 s)) = comp s /\
  log (world (snd (handleGenerate 10 s))) = [EvPreventDefault].
Proof.
  cbv zeta. split; [reflexivity|].
  destruct (no_user_is_a_no_op 10
              (sampleSys None true (Normal (responseOf [[imagePart "AAAA"]]))
                 false 10)) as (_ & Hc & _ & _ & _ & Hl).
  - reflexivity.
  - split; [exact Hc | exact Hl].
Defined.

(** The scenario of the specification: balance 5, cost 10. *)
Lemma insufficient_credits_are_rejected_witness :
  let s := sampleSys None true (Normal (responseOf [[imagePart "AAAA"]])) true 5 in
  error (comp (snd (handleGenerate 10 s)))
    = "Not enough credits. You need 10 credits to generate an image." /\
  accounts (world (snd (handleGenerate 10 s))) !! "u1" = Some 5 /\
  log (world (snd (handleGenerate 10 s))) = [EvPreventDefault].
Proof.
  cbv zeta.
  destruct (insufficient_credits_are_rejected 10
              (sampleSys None true (Normal (responseOf [[imagePart "AAAA"]]))
                 true 5) {| id := "u1"; credits := 5 |})
    as (_ & Hl & _ & _ & Ha & _ & He).
  - reflexivity.
  - reflexivity.
  - split; [exact He|]. split; [by rewrite Ha | exact Hl].
Defined.

(** The scenario of the specification: balance 10, cost 10, one image. *)
Lemma success_debits_and_records_witness :
  let s := sampleSys None true (Normal (responseOf [[imagePart "AAAA"]])) true 10 in
  balanceOf (accounts (world (snd (handleGenerate 10 s)))) "u1" = 10 - 10 /\
  history (world (snd (handleGenerate 10 s))) =
    [ {| accountId := "u1"; entryPrompt := "a cat";
         imageReference := "data:image/png;base64,AAAA";
         modelIdentifier := "gemini-3-pro-image-preview";
         resolution := S2K; timestamp := 1700000000000 |} ].
Proof.
  cbv zeta.
  destruct (success_debits_and_records 10
              (sampleSys None true (Normal (responseOf [[imagePart "AAAA"]]))
                 true 10)
              {| id := "u1"; credits := 10 |} "data:image/png;base64,AAAA")
    as (Hb & _ & _ & _ & Hh & _).
  - reflexivity.
  - reflexivity.
  - reflexivity.
  - reflexivity.
  - split; [|exact Hh]. apply Hb. reflexivity.
Defined.

Lemma failure_leaves_account_and_history_witness :
  let s := sampleSys None true (Throw quotaError) true 15 in
  error (comp (snd (handleGenerate 10 s))) = generationFailed /\
  accounts (world (snd (handleGenerate 10 s))) = accounts (world s) /\
  history (world (snd (handleGenerate 10 s))) = [].
Proof.
  cbv zeta. split; [reflexivity|].
  destruct (failure_leaves_account_and_history 10
              (sampleSys None true (Throw quotaError) true 15)
              {| id := "u1"; credits := 15 |}) as (Ha & _ & Hh & _).
  - reflexivity.
  - cbv; discriminate.
  - right. reflexivity.
  - split; [exact Ha | exact Hh].
Defined.

Lemma entity_not_found_retries_selection_once_witness :
  let s := sampleSys (Some (studioAnswering (rejectFirst notFoundError))) false
             (Normal (responseOf [[imagePart "AAAA"]])) true 10 in
  isEntityNotFound notFoundError = true /\
  selectCalls (world (snd (handleGenerate 10 s))) = 2%nat.
Proof.
  cbv zeta. split; [reflexivity|].
  destruct (entity_not_found_retries_selection_once 10
              (sampleSys (Some (studioAnswering (rejectFirst notFoundError)))
                 false (Normal (responseOf [[imagePart "AAAA"]])) true 10)
              {| id := "u1"; credits := 10 |}
              (studioAnswering (rejectFirst notFoundError))
              (rejectFirst notFoundError) notFoundError) as (Hn & _).
  - reflexivity.
  - cbv; discriminate.
  - reflexivity.
  - reflexivity.
  - reflexivity.
  - reflexivity.
  - reflexivity.
  - exact Hn.
Defined.

(** * Further properties of the code *)

(** ** Strings *)

Lemma append_cons a (s1 s2 : string) : String a s1 +:+ s2 = String a (s1 +:+ s2).
Proof. reflexivity. Qed.

Lemma append_nil (s : string) : "" +:+ s = s.
Proof. reflexivity. Qed.

Lemma prefix_spec needle haystack :
  String.prefix needle haystack = true <-> exists post, haystack = needle +:+ post.
Proof.
  revert haystack. induction needle as [|a needle IH]; intros haystack; cbn.
  - split; [by exists haystack | by destruct haystack].
  - destruct haystack as [|b haystack]; cbn.
    { split; [done | by intros [post [=]]]. }
    destruct (ascii_dec a b) as [->|Hne].
    + rewrite IH. split; intros [post Hpost]; exists post.
      * by rewrite append_cons, Hpost.
      * rewrite append_cons in Hpost. congruence.
    + split; [done | intros [post Hpost]].
      rewrite append_cons in Hpost. congruence.
Qed.

Lemma includes_spec needle haystack :
  includes needle haystack = true <->
  exists pre post, haystack = pre +:+ needle +:+ post.
Proof.
  induction haystack as [|a haystack IH]; cbn [includes].
  - rewrite orb_false_r, prefix_spec. split.
    + intros [post Hpost]. by exists "", post.
    + intros ([|b pre] & post & Hpost); [by exists post | done].
  - rewrite orb_true_iff, prefix_spec, IH. split.
    + intros [[post Hpost]|(pre & post & Hpost)].
      * by exists "", post.
      * exists (String a pre), post. by rewrite append_cons, Hpost.
    + intros ([|b pre] & post & Hpost).
      * left. by exists post.
      * right. exists pre, post. rewrite append_cons in Hpost. congruence.
Qed.

(** X13. The retry of the key selection is triggered exactly by the errors
    whose message contains the phrase "Requested entity was not found"
    somewhere, whatever surrounds it. *)
Theorem entity_not_found_is_a_substring_test e :
  isEntityNotFound e = true <->
  exists pre post,
    message e = pre +:+ "Requested entity was not found" +:+ post.
Proof.
  unfold isEntityNotFound, entityNotFound.
  rewrite andb_true_iff, includes_spec. split; [by intros [_ H]|].
  intros (pre & post & Hmsg). split; [|by exists pre, post].
  rewrite Hmsg. by destruct pre.
Qed.

(** ** The request client, continued *)

(** X2. Where the candidates are present but the first one cannot be
    read, the client fails with the runtime's [TypeError]: reading
    [content] of the missing first element of an empty list, or [parts] of
    the missing content of the first candidate. The error is logged and
    rethrown like any other. *)
Theorem unreadable_candidates_throw_type_error prompt size s response cs :
  generateContent (world s)
    (requestFor (API_KEY (world s)) prompt (default S1K size))
  = Normal response ->
  candidates response = Some cs ->
  cs = [] \/ (exists c rest, cs = c :: rest /\ content c = None) ->
  let err := TypeErrorReading (match cs with [] => "content" | _ => "parts" end) in
  generateImage prompt size s =
  (Throw err,
   logged [EvGenerateContent
             (requestFor (API_KEY (world s)) prompt (default S1K size));
           EvConsoleError (Some "Gemini API Error:") err] s).
Proof.
  intros Hans Hcs Hbad. rewrite generateImage_run; cbn. rewrite Hans.
  unfold clientOutcome, findImageUrl. rewrite Hcs.
  destruct Hbad as [->|(c & rest & -> & Hc)]; cbn; [done|].
  by rewrite Hc.
Qed.

(** X3. What the client returns, value or error, is decided by the first
    candidate alone: two answers that differ only in their later
    candidates get the same outcome. *)
Theorem outcome_is_decided_by_first_candidate prompt size s1 s2 c rest1 rest2 :
  generateContent (world s1)
    (requestFor (API_KEY (world s1)) prompt (default S1K size))
  = Normal {| candidates := Some (c :: rest1) |} ->
  generateContent (world s2)
    (requestFor (API_KEY (world s2)) prompt (default S1K size))
  = Normal {| candidates := Some (c :: rest2) |} ->
  fst (generateImage prompt size s1) = fst (generateImage prompt size s2).
Proof.
  intros H1 H2. rewrite !generateImage_run; cbn. by rewrite H1, H2.
Qed.

(** ** The credential gate, continued *)

(** X4. The mount check never rejects, and it touches only [hasApiKey]
    and the log: every other field of the component and of the world is
    what it was. The flag becomes the selector's answer; it becomes [true]
    when there is no selector or the selector has no [hasSelectedApiKey];
    it keeps its value, and the error is logged, when the selector's check
    throws. No request is sent and no key selection is opened. *)
Theorem checkKey_never_rejects s :
  exists evs,
    checkKey s =
    (Normal tt,
     {| comp := {| prompt := prompt (comp s); size := size (comp s);
                   isGenerating := isGenerating (comp s);
                   generatedImage := generatedImage (comp s);
                   error := error (comp s); user := user (comp s);
                   hasApiKey :=
                     match aistudio (world s) with
                     | Some a =>
                         match hasSelectedApiKey a with
                         | Some (Normal hasKey) => hasKey
                         | Some (Throw _) => hasApiKey (comp s)
                         | None => true
                         end
                     | None => true
                     end |};
        world := withLog (log (world s) ++ evs) (world s) |}) /\
    evs =
      match aistudio (world s) with
      | Some a =>
          match hasSelectedApiKey a with
          | Some (Normal _) => [EvHasSelectedApiKey]
          | Some (Throw e) =>
              [EvHasSelectedApiKey;
               EvConsoleError (Some "Error checking API key status") e]
          | None => []
          end
      | None => []
      end /\
    countEvents isRequest evs = 0%nat /\
    countEvents isSelection evs = 0%nat.
Proof.
  assert (Hsame : forall w, withLog (log w ++ []) w = w).
  { intros []. unfold withLog; cbn. by rewrite app_nil_r. }
  unfold checkKey. run_monad.
  destruct (aistudio (world s)) as [a|]; cbn.
  2:{ exists []. by rewrite Hsame. }
  destruct (hasSelectedApiKey a) as [[hasKey|e]|]; cbn.
  - by exists [EvHasSelectedApiKey].
  - exists [EvHasSelectedApiKey;
            EvConsoleError (Some "Error checking API key status") e].
    split_and!; try done. unfold withLog; cbn. rewrite <- app_assoc.
    by destruct s as [[] ?].
  - exists []. by rewrite Hsame.
Qed.

(** A first selection that fails with any other error is logged and
    forgotten. *)
Lemma handleSelectKey_swallows s a answer (e : JsError) :
  aistudio (world s) = Some a ->
  openSelectKey a = Some answer ->
  answer (selectCalls (world s)) = Some (ErrorValue e) ->
  isEntityNotFound e = false ->
  handleSelectKey s =
  (Normal tt,
   {| comp := comp s;
      world := withSelectCalls (S (selectCalls (world s)))
                 (withLog (log (world s) ++
                           [EvOpenSelectKey; EvConsoleError None e]) (world s)) |}).
Proof.
  intros Ha Hopen Hfirst Hnf. unfold handleSelectKey, callOpenSelectKey.
  run_monad. rewrite Ha; cbn. rewrite Hopen; cbn. rewrite Hfirst; cbn.
  rewrite Hnf; cbn. unfold withSelectCalls, withLog; cbn.
  rewrite <- !app_assoc. by destruct s as [[] ?].
Qed.


(** X14. Whatever the selector answers, [handleSelectKey] opens the key
    selection at most twice, sends no request to the image service, and
    leaves the user record, the error message, the account store and the
    history as they were. *)
Theorem key_selection_opens_at_most_twice s :
  let s' := snd (handleSelectKey s) in
  (selectCalls (world s') <= selectCalls (world s) + 2)%nat /\
  user (comp s') = user (comp s) /\
  error (comp s') = error (comp s) /\
  accounts (world s') = accounts (world s) /\
  history (world s') = history (world s) /\
  exists evs,
    log (world s') = log (world s) ++ evs /\
    countEvents isSelection evs
      = (selectCalls (world s') - selectCalls (world s))%nat /\
    countEvents isRequest evs = 0%nat.
Proof.
  unfold handleSelectKey, callOpenSelectKey. run_monad.
  destruct (aistudio (world s)) as [a|] eqn:Ha; cbn.
  2:{ split_and!; try done; try lia. exists []. rewrite app_nil_r.
      split_and!; cbn; done || lia. }
  destruct (openSelectKey a) as [answer|] eqn:Hopen; cbn.
  2:{ split_and!; try done; try lia. exists []. rewrite app_nil_r.
      split_and!; cbn; done || lia. }
  destruct (answer (selectCalls (world s))) as [[e| |]|]; cbn.
  2,3,4: split_and!; try done; try lia; exists [EvOpenSelectKey];
         split_and!; cbn; done || lia.
  destruct (isEntityNotFound e); cbn.
  2:{ split_and!; try done; try lia.
      exists [EvOpenSelectKey; EvConsoleError None e].
      rewrite <- app_assoc. split_and!; cbn; done || lia. }
  rewrite Ha; cbn. rewrite Hopen; cbn.
  destruct (answer (S (selectCalls (world s)))) as [e'|]; cbn.
  all: split_and!; try done; try lia.
  all: exists [EvOpenSelectKey; EvAlert "Please select a valid API key again.";
               EvOpenSelectKey].
  all: rewrite <- !app_assoc; split_and!; cbn; done || lia.
Qed.

(** ** The generation controller, continued *)

Lemma countEvents_app kind evs1 evs2 :
  countEvents kind (evs1 ++ evs2)
  = (countEvents kind evs1 + countEvents kind evs2)%nat.
Proof. unfold countEvents. by rewrite List.filter_app, length_app. Qed.

Lemma countEvents_gate kind evs :
  (forall ev, gateEvent ev -> kind ev = false) ->
  Forall gateEvent evs -> countEvents kind evs = 0%nat.
Proof.
  intros Hkind. unfold countEvents.
  induction 1 as [|ev evs Hev _ IH]; cbn; [done|]. by rewrite (Hkind ev Hev).
Qed.

Lemma gate_skipped s :
  hasApiKey (comp s) = true \/ aistudio (world s) = None ->
  gateOf s = (Normal tt, logged [EvPreventDefault] s).
Proof.
  unfold gateOf. intros [->| ->]; cbn; [done|]. by rewrite andb_false_r.
Qed.

Lemma clientOutcome_not_empty answer imageUrl :
  clientOutcome answer = Normal imageUrl -> String.eqb imageUrl "" = false.
Proof.
  intros Hout.
  destruct (clientOutcome_normal _ _ Hout) as (_ & _ & _ & _ & blob & _ & _ & _ & _ & _ & ->).
  done.
Qed.

Section MoreControllerProperties.

Variable IMAGE_COST : Z.

(** X5. A key selection that fails with anything but "entity not found"
    does not stop the submission: the error goes to the console, there is
    no retry, [hasApiKey] stays false, and the request is sent all the
    same. *)
Theorem selection_failure_is_swallowed s u a answer (e : JsError) :
  user (comp s) = Some u ->
  IMAGE_COST <= credits u ->
  hasApiKey (comp s) = false ->
  aistudio (world s) = Some a ->
  openSelectKey a = Some answer ->
  answer (selectCalls (world s)) = Some (ErrorValue e) ->
  isEntityNotFound e = false ->
  let s' := snd (handleGenerate IMAGE_COST s) in
  fst (handleGenerate IMAGE_COST s) = Normal tt /\
  selectCalls (world s') = S (selectCalls (world s)) /\
  hasApiKey (comp s') = false /\
  exists rest,
    log (world s') =
      log (world s) ++
      [EvPreventDefault; EvOpenSelectKey; EvConsoleError None e;
       EvGenerateContent
         (requestFor (API_KEY (world s)) (prompt (comp s)) (size (comp s)))]
      ++ rest.
Proof.
  intros Hu Hge Hkey Ha Hopen Hfirst Hnf s'. subst s'.
  assert (Hgate : gateOf s = handleSelectKey (logged [EvPreventDefault] s)).
  { unfold gateOf. by rewrite Hkey, Ha. }
  rewrite (handleSelectKey_swallows (logged [EvPreventDefault] s) a answer e
             Ha Hopen Hfirst Hnf) in Hgate.
  cbn in Hgate.
  rewrite (handleGenerate_generates IMAGE_COST s u _ Hu Hge Hgate). cbn.
  destruct (clientOutcome _) as [url|err]; cbn.
  all: split_and!; try done.
  all: eexists; rewrite <- !app_assoc; cbn; done.
Qed.

(** X6. When the retry of the key selection is rejected, the handler is
    rejected with that error and the user is told nothing: the error
    message, the busy flag and the displayed image are what they were,
    [hasApiKey] is false, and the account and the history are untouched. *)
Theorem rejected_retry_surfaces_nothing s u a answer (e : JsError) e' :
  user (comp s) = Some u ->
  IMAGE_COST <= credits u ->
  hasApiKey (comp s) = false ->
  aistudio (world s) = Some a ->
  openSelectKey a = Some answer ->
  answer (selectCalls (world s)) = Some (ErrorValue e) ->
  isEntityNotFound e = true ->
  answer (S (selectCalls (world s))) = Some e' ->
  let s' := snd (handleGenerate IMAGE_COST s) in
  fst (handleGenerate IMAGE_COST s) = Throw e' /\
  error (comp s') = error (comp s) /\
  isGenerating (comp s') = isGenerating (comp s) /\
  generatedImage (comp s') = generatedImage (comp s) /\
  hasApiKey (comp s') = false /\
  user (comp s') = Some u /\
  accounts (world s') = accounts (world s) /\
  history (world s') = history (world s).
Proof.
  intros Hu Hge Hkey Ha Hopen Hfirst Hnf Hsecond s'. subst s'.
  assert (Hgate : gateOf s = handleSelectKey (logged [EvPreventDefault] s)).
  { unfold gateOf. by rewrite Hkey, Ha. }
  rewrite (handleSelectKey_retry (logged [EvPreventDefault] s) a answer e
             Ha Hopen Hfirst Hnf) in Hgate.
  cbn in Hgate. rewrite Hsecond in Hgate.
  by rewrite (handleGenerate_gate_throws IMAGE_COST s u e' _ Hu Hge Hgate).
Qed.

(** X8. With a key already selected, or without a key selector in the
    window, a submission never opens the key selection and never changes
    [hasApiKey], and the handler is never rejected, whatever the user
    record and the service's answer. *)
Theorem submission_with_key_skips_selection s :
  hasApiKey (comp s) = true \/ aistudio (world s) = None ->
  let s' := snd (handleGenerate IMAGE_COST s) in
  fst (handleGenerate IMAGE_COST s) = Normal tt /\
  selectCalls (world s') = selectCalls (world s) /\
  hasApiKey (comp s') = hasApiKey (comp s) /\
  exists evs,
    log (world s') = log (world s) ++ evs /\
    countEvents isSelection evs = 0%nat.
Proof.
  intros Hskip s'. subst s'.
  destruct (user (comp s)) as [u|] eqn:Hu.
  2:{ rewrite (handleGenerate_no_user IMAGE_COST s Hu). cbn.
      split_and!; try done. by eexists. }
  destruct (Z.lt_ge_cases (credits u) IMAGE_COST) as [Hlt|Hge].
  { rewrite (handleGenerate_rejected IMAGE_COST s u Hu Hlt). cbn.
    split_and!; try done. by eexists. }
  rewrite (handleGenerate_generates IMAGE_COST s u _ Hu Hge (gate_skipped s Hskip)).
  cbn. destruct (clientOutcome _) as [url|err]; cbn.
  all: split_and!; try done.
  all: eexists; rewrite <- !app_assoc; cbn; done.
Qed.

(** X9. Once a submission got past the credit check and the key gate, the
    busy flag is cleared when the handler completes, whether the
    generation succeeded or failed. *)
Theorem busy_flag_is_cleared s u :
  user (comp s) = Some u ->
  IMAGE_COST <= credits u ->
  fst (handleGenerate IMAGE_COST s) = Normal tt ->
  isGenerating (comp (snd (handleGenerate IMAGE_COST s))) = false.
Proof.
  intros Hu Hge Hres.
  destruct (gate_result s) as (r & s1 & Hgate & _).
  destruct r as [[]|e].
  2:{ by rewrite (handleGenerate_gate_throws IMAGE_COST s u e s1 Hu Hge Hgate) in Hres. }
  rewrite (handleGenerate_generates IMAGE_COST s u s1 Hu Hge Hgate). cbn.
  by destruct (clientOutcome _).
Qed.

(** X10. When the generation call fails, with whatever error, the user
    gets the one generic message, and the image shown before is gone: the
    preview falls back to the invitation text. The error itself is written
    to the console twice, by the client and by the handler. *)
Theorem generation_failure_shows_generic_message s u e :
  user (comp s) = Some u ->
  IMAGE_COST <= credits u ->
  fst (handleGenerate IMAGE_COST s) = Normal tt ->
  fst (generateImage (prompt (comp s)) (Some (size (comp s))) s) = Throw e ->
  let s' := snd (handleGenerate IMAGE_COST s) in
  error (comp s') =
    "Failed to generate image. Please try again or check your API key settings." /\
  errorLine (comp s') = Some (error (comp s')) /\
  generatedImage (comp s') = None /\
  preview (comp s') = Invitation /\
  exists evs,
    Forall gateEvent evs /\
    log (world s') =
      log (world s) ++ EvPreventDefault :: evs ++
      [EvGenerateContent
         (requestFor (API_KEY (world s)) (prompt (comp s)) (size (comp s)));
       EvConsoleError (Some "Gemini API Error:") e;
       EvConsoleError None e].
Proof.
  intros Hu Hge Hres Hgen s'. subst s'.
  destruct (gate_result s) as (r & s1 & Hgate & Hs1).
  pose proof (gate_frame s) as Hframe. cbn zeta in Hframe. rewrite <- Hs1 in Hframe.
  destruct Hframe as ((_ & Hkey & Hsvc & _) & _ & evs & Hlog & Hevs).
  destruct r as [[]|e0].
  2:{ by rewrite (handleGenerate_gate_throws IMAGE_COST s u e0 s1 Hu Hge Hgate) in Hres. }
  rewrite (handleGenerate_generates IMAGE_COST s u s1 Hu Hge Hgate).
  rewrite generateImage_run in Hgen; cbn in Hgen.
  rewrite Hkey, Hsvc, Hgen. cbn. rewrite Hlog.
  split_and!; try done. exists evs. split; [done|]. by rewrite <- app_assoc.
Qed.

(** X11. When the submit button is enabled and a user is loaded, a
    submission is neither turned down for credits nor sent through the
    key selection: right after [preventDefault] it sends the request. *)
Theorem enabled_submission_goes_straight_to_request s u :
  user (comp s) = Some u ->
  submitDisabled IMAGE_COST (comp s) (world s) = false ->
  let s' := snd (handleGenerate IMAGE_COST s) in
  fst (handleGenerate IMAGE_COST s) = Normal tt /\
  selectCalls (world s') = selectCalls (world s) /\
  exists rest,
    log (world s') =
      log (world s) ++
      EvPreventDefault ::
      EvGenerateContent
        (requestFor (API_KEY (world s)) (prompt (comp s)) (size (comp s))) ::
      rest.
Proof.
  intros Hu Hen s'. subst s'. unfold submitDisabled in Hen. rewrite Hu in Hen.
  apply orb_false_elim in Hen as [Hgate Hcredits].
  apply Z.ltb_ge in Hcredits.
  assert (Hskip : gateOf s = (Normal tt, logged [EvPreventDefault] s)).
  { unfold gateOf. by rewrite Hgate. }
  rewrite (handleGenerate_generates IMAGE_COST s u _ Hu Hcredits Hskip). cbn.
  destruct (clientOutcome _) as [url|err]; cbn.
  all: split_and!; try done.
  all: eexists; rewrite <- !app_assoc; cbn; done.
Qed.

(** X12. After a successful generation the preview shows the returned
    image (the reference is never the empty string, so the pane does not
    fall back to the invitation) and no error line is displayed. *)
Theorem success_shows_the_image s u imageUrl :
  user (comp s) = Some u ->
  IMAGE_COST <= credits u ->
  fst (handleGenerate IMAGE_COST s) = Normal tt ->
  fst (generateImage (prompt (comp s)) (Some (size (comp s))) s) = Normal imageUrl ->
  preview (comp (snd (handleGenerate IMAGE_COST s))) = Picture imageUrl /\
  errorLine (comp (snd (handleGenerate IMAGE_COST s))) = None.
Proof.
  intros Hu Hge Hres Hgen.
  destruct (gate_result s) as (r & s1 & Hgate & Hs1).
  pose proof (gate_frame s) as Hframe. cbn zeta in Hframe. rewrite <- Hs1 in Hframe.
  destruct Hframe as ((_ & Hkey & Hsvc & _) & _).
  destruct r as [[]|e0].
  2:{ by rewrite (handleGenerate_gate_throws IMAGE_COST s u e0 s1 Hu Hge Hgate) in Hres. }
  rewrite (handleGenerate_generates IMAGE_COST s u s1 Hu Hge Hgate).
  rewrite generateImage_run in Hgen; cbn in Hgen.
  rewrite Hkey, Hsvc, Hgen. cbn. unfold preview, errorLine; cbn.
  by rewrite (clientOutcome_not_empty _ _ Hgen).
Qed.

(** X15. No submission sends more than one request to the image service;
    the account is debited at most once, and only in a submission that
    sent its request; the history is written only in a submission that
    debited the account. *)
Theorem at_most_one_request_per_submission s :
  exists evs,
    log (world (snd (handleGenerate IMAGE_COST s))) = log (world s) ++ evs /\
    (countEvents isRequest evs <= 1)%nat /\
    (countEvents isDebit evs <= countEvents isRequest evs)%nat /\
    (countEvents isSave evs <= countEvents isDebit evs)%nat.
Proof.
  destruct (user (comp s)) as [u|] eqn:Hu.
  2:{ rewrite (handleGenerate_no_user IMAGE_COST s Hu). cbn.
      exists [EvPreventDefault]. split_and!; cbn; done || lia. }
  destruct (Z.lt_ge_cases (credits u) IMAGE_COST) as [Hlt|Hge].
  { rewrite (handleGenerate_rejected IMAGE_COST s u Hu Hlt). cbn.
    exists [EvPreventDefault]. split_and!; cbn; done || lia. }
  destruct (gate_result s) as (r & s1 & Hgate & Hs1).
  pose proof (gate_frame s) as Hframe. cbn zeta in Hframe. rewrite <- Hs1 in Hframe.
  destruct Hframe as (_ & _ & evs & Hlog & Hevs).
  assert (Hreq : countEvents isRequest evs = 0%nat)
    by (apply countEvents_gate; [by intros []|done]).
  assert (Hdeb : countEvents isDebit evs = 0%nat)
    by (apply countEvents_gate; [by intros []|done]).
  assert (Hsav : countEvents isSave evs = 0%nat)
    by (apply countEvents_gate; [by intros []|done]).
  destruct r as [[]|e].
  { rewrite (handleGenerate_generates IMAGE_COST s u s1 Hu Hge Hgate). cbn.
    destruct (clientOutcome _) as [url|err]; cbn; rewrite Hlog, <- app_assoc.
    all: eexists; split; [done|].
    all: change (EvPreventDefault :: evs) with ([EvPreventDefault] ++ evs).
    all: rewrite !countEvents_app, Hreq, Hdeb, Hsav; cbn; lia. }
  rewrite (handleGenerate_gate_throws IMAGE_COST s u e s1 Hu Hge Hgate). cbn.
  rewrite Hlog. eexists; split; [done|].
  change (EvPreventDefault :: evs) with ([EvPreventDefault] ++ evs).
  rewrite !countEvents_app, Hreq, Hdeb, Hsav; cbn; lia.
Qed.

(** X16. Without a loaded user the credit test of the submit button
    compares [undefined] and does not disable it: with a key selected (or
    no selector) the button is enabled, and a click does nothing but
    [preventDefault]. *)
Theorem no_user_button_is_enabled_but_inert s :
  user (comp s) = None ->
  hasApiKey (comp s) = true \/ aistudio (world s) = None ->
  submitDisabled IMAGE_COST (comp s) (world s) = false /\
  handleGenerate IMAGE_COST s = (Normal tt, logged [EvPreventDefault] s).
Proof.
  intros Hu Hkey. split; [|by apply handleGenerate_no_user].
  unfold submitDisabled. rewrite Hu.
  destruct Hkey as [->| ->]; cbn; [done|]. by rewrite andb_false_r.
Qed.

End MoreControllerProperties.

(** ** The further properties at work on sample systems *)

Lemma image_less_first_candidate_is_reported_witness :
  let s := sampleSys None true (Normal (responseOf [[textPart; textPart]])) true 10 in
  fst (generateImage "a cat" (Some S2K) s)
  = Throw (Error "No image generated in response").
Proof.
  cbv zeta.
  apply (image_less_first_candidate_is_reported "a cat" (Some S2K) _
           (responseOf [[textPart; textPart]])).
  - reflexivity.
  - right. exists {| content := Some {| parts := Some [textPart; textPart] |} |},
      [], {| parts := Some [textPart; textPart] |}.
    split; [reflexivity|]. split; [reflexivity|]. right.
    exists [textPart; textPart]. split; [reflexivity|].
    repeat constructor.
Defined.

Lemma unreadable_candidates_throw_type_error_witness :
  let s := sampleSys None true (Normal {| candidates := Some [] |}) true 10 in
  fst (generateImage "a cat" (Some S2K) s) = Throw (TypeErrorReading "content").
Proof.
  cbv zeta.
  rewrite (unreadable_candidates_throw_type_error "a cat" (Some S2K) _
             {| candidates := Some [] |} []).
  - reflexivity.
  - reflexivity.
  - reflexivity.
  - left. reflexivity.
Defined.

Lemma outcome_is_decided_by_first_candidate_witness :
  let s1 := sampleSys None true
              (Normal (responseOf [[textPart]; [imagePart "BBBB"]])) true 10 in
  let s2 := sampleSys None true (Normal (responseOf [[textPart]])) true 10 in
  fst (generateImage "a cat" (Some S2K) s1) = fst (generateImage "a cat" (Some S2K) s2).
Proof.
  cbv zeta.
  apply (outcome_is_decided_by_first_candidate "a cat" (Some S2K) _ _
           {| content := Some {| parts := Some [textPart] |} |}
           [ {| content := Some {| parts := Some [imagePart "BBBB"] |} |} ] []).
  - reflexivity.
  - reflexivity.
Defined.

Lemma entity_not_found_is_a_substring_test_witness :
  isEntityNotFound
    (Error "404 NOT_FOUND: Requested entity was not found. Pick another key") = true.
Proof.
  apply (proj2 (entity_not_found_is_a_substring_test
                  (Error "404 NOT_FOUND: Requested entity was not found. Pick another key"))).
  exists "404 NOT_FOUND: ", ". Pick another key". reflexivity.
Defined.


Lemma selection_failure_is_swallowed_witness :
  let s := sampleSys (Some (studioAnswering (rejectFirst cancelError))) false
             (Normal (responseOf [[imagePart "AAAA"]])) true 10 in
  isEntityNotFound cancelError = false /\
  fst (handleGenerate 10 s) = Normal tt /\
  selectCalls (world (snd (handleGenerate 10 s))) = 1%nat.
Proof.
  cbv zeta. split; [reflexivity|].
  destruct (selection_failure_is_swallowed 10
              (sampleSys (Some (studioAnswering (rejectFirst cancelError)))
                 false (Normal (responseOf [[imagePart "AAAA"]])) true 10)
              {| id := "u1"; credits := 10 |}
              (studioAnswering (rejectFirst cancelError))
              (rejectFirst cancelError) cancelError) as (Hr & Hn & _).
  - reflexivity.
  - cbv; discriminate.
  - reflexivity.
  - reflexivity.
  - reflexivity.
  - reflexivity.
  - reflexivity.
  - split; [exact Hr | exact Hn].
Defined.

Lemma rejected_retry_surfaces_nothing_witness :
  let s := sampleSys (Some (studioAnswering (rejectAlways notFoundError))) false
             (Normal (responseOf [[imagePart "AAAA"]])) true 10 in
  fst (handleGenerate 10 s) = Throw notFoundError /\
  error (comp (snd (handleGenerate 10 s))) = "".
Proof.
  cbv zeta.
  destruct (rejected_retry_surfaces_nothing 10
              (sampleSys (Some (studioAnswering (rejectAlways notFoundError)))
                 false (Normal (responseOf [[imagePart "AAAA"]])) true 10)
              {| id := "u1"; credits := 10 |}
              (studioAnswering (rejectAlways notFoundError))
              (rejectAlways notFoundError) notFoundError notFoundError)
    as (Hr & He & _).
  - reflexivity.
  - cbv; discriminate.
  - reflexivity.
  - reflexivity.
  - reflexivity.
  - reflexivity.
  - reflexivity.
  - reflexivity.
  - split; [exact Hr | exact He].
Defined.

Lemma submission_with_key_skips_selection_witness :
  let s := sampleSys (Some (studioAnswering (rejectAlways notFoundError))) true
             (Normal (responseOf [[imagePart "AAAA"]])) true 10 in
  fst (handleGenerate 10 s) = Normal tt /\
  selectCalls (world (snd (handleGenerate 10 s))) = 0%nat.
Proof.
  cbv zeta.
  destruct (submission_with_key_skips_selection 10
              (sampleSys (Some (studioAnswering (rejectAlways notFoundError)))
                 true (Normal (responseOf [[imagePart "AAAA"]])) true 10))
    as (Hr & Hn & _).
  - left. reflexivity.
  - split; [exact Hr | exact Hn].
Defined.

Lemma busy_flag_is_cleared_witness :
  let s := sampleSys None true (Throw quotaError) true 10 in
  isGenerating (comp (snd (handleGenerate 10 s))) = false.
Proof.
  cbv zeta.
  apply (busy_flag_is_cleared 10 _ {| id := "u1"; credits := 10 |}).
  - reflexivity.
  - cbv; discriminate.
  - reflexivity.
Defined.

Lemma generation_failure_shows_generic_message_witness :
  let s := sampleSys None true (Throw quotaError) true 10 in
  preview (comp (snd (handleGenerate 10 s))) = Invitation /\
  errorLine (comp (snd (handleGenerate 10 s))) =
    Some "Failed to generate image. Please try again or check your API key settings.".
Proof.
  cbv zeta.
  destruct (generation_failure_shows_generic_message 10
              (sampleSys None true (Throw quotaError) true 10)
              {| id := "u1"; credits := 10 |} quotaError)
    as (He & Hl & _ & Hp & _).
  - reflexivity.
  - cbv; discriminate.
  - reflexivity.
  - reflexivity.
  - split; [exact Hp|]. by rewrite Hl, He.
Defined.

Lemma enabled_submission_goes_straight_to_request_witness :
  let s := sampleSys None true (Normal (responseOf [[imagePart "AAAA"]])) true 10 in
  submitDisabled 10 (comp s) (world s) = false /\
  fst (handleGenerate 10 s) = Normal tt.
Proof.
  cbv zeta. split; [reflexivity|].
  destruct (enabled_submission_goes_straight_to_request 10
              (sampleSys None true (Normal (responseOf [[imagePart "AAAA"]]))
                 true 10) {| id := "u1"; credits := 10 |}) as (Hr & _).
  - reflexivity.
  - reflexivity.
  - exact Hr.
Defined.

Lemma success_shows_the_image_witness :
  let s := sampleSys None true (Normal (responseOf [[imagePart "AAAA"]])) true 10 in
  preview (comp (snd (handleGenerate 10 s))) = Picture "data:image/png;base64,AAAA".
Proof.
  cbv zeta.
  apply (success_shows_the_image 10 _ {| id := "u1"; credits := 10 |}).
  - reflexivity.
  - cbv; discriminate.
  - reflexivity.
  - reflexivity.
Defined.

Lemma no_user_button_is_enabled_but_inert_witness :
  let s := sampleSys None true (Normal (responseOf [[imagePart "AAAA"]])) false 10 in
  submitDisabled 10 (comp s) (world s) = false /\
  log (world (snd (handleGenerate 10 s))) = [EvPreventDefault].
Proof.
  cbv zeta.
  destruct (no_user_button_is_enabled_but_inert 10
              (sampleSys None true (Normal (responseOf [[imagePart "AAAA"]]))
                 false 10)) as (Hd & Hrun).
  - reflexivity.
  - left. reflexivity.
  - split; [exact Hd|]. by rewrite Hrun.
Defined.
